(** * The two smoke-test programs of the toolchain recipe

    [all/test_package_old/main.cpp] prints two integers and their sum
    through C stdio; [demos/cpp-modules/main.cpp] prints a banner and the
    results of [test::sum], imported from a C++ module, through
    [std::println].

    Both [main] functions are embedded as computations in a small monad
    over the state of the running process.  The library calls they make
    ([std::puts], [std::printf], [std::println]) are given the behaviour
    the C and C++ standards document for them, including what they do
    when the stream reports a failed write: the C functions pass it on
    through a return value, [std::println] throws [std::system_error].
    What the stream does with the text, and when, is left to the world
    the process runs in. *)

From Stdlib Require Import ZArith List String Ascii Bool Lia.
From Stdlib Require Import DecimalString.
From Stdlib Require Import Floats.SpecFloat.
Import ListNotations.

Local Open Scope string_scope.
Local Open Scope Z_scope.

(** ** Bytes, lines and decimal numerals *)

Definition nl : ascii := "010"%char.
Definition endl : string := String nl EmptyString.

(** The number of newline bytes of a text: its newline-terminated lines. *)
Fixpoint count_nl (s : string) : nat :=
  match s with
  | EmptyString => 0%nat
  | String c r => ((if Ascii.eqb c nl then 1 else 0) + count_nl r)%nat
  end.

Fixpoint split_lines (cur : string) (s : string) : list string :=
  match s with
  | EmptyString => match cur with EmptyString => [] | _ => [cur] end
  | String c r =>
      if Ascii.eqb c nl then cur :: split_lines EmptyString r
      else split_lines (cur ++ String c EmptyString) r
  end.

(** The lines of a text, without their terminators; an unterminated last
    fragment counts as a line when it is not empty. *)
Definition lines (s : string) : list string := split_lines EmptyString s.

Fixpoint take (n : nat) (s : string) : string :=
  match n, s with
  | S n', String c r => String c (take n' r)
  | _, _ => EmptyString
  end.

Fixpoint drop (n : nat) (s : string) : string :=
  match n, s with
  | S n', String _ r => drop n' r
  | _, _ => s
  end.

Fixpoint zeros (n : nat) : string :=
  match n with
  | O => EmptyString
  | S n' => String "0" (zeros n')
  end.

Definition bytes (l : list nat) : string :=
  string_of_list_ascii (map ascii_of_nat l).

(** Decimal numeral of an integer: what [%d] and [{}] print for it. *)
Definition dec (n : Z) : string := NilZero.string_of_int (Z.to_int n).

(** ** The process and its standard output *)

(** What becomes of one use of the stream: it takes the text; it takes
    [k] bytes at most and reports a failure to the caller; the process
    is killed by a signal on the way (SIGPIPE, SIGXFSZ); or the call
    never comes back. *)
Inductive fate :=
| Takes
| Fails (k : nat)
| Kills
| Blocks.

(** What an invocation is given.  [stdout_fate w i] is what becomes of
    the [i]-th use of standard output in the run: first the calls of
    the program in their order, and after them the flush when the
    process exits.  Whether a device that refuses bytes shows in a call
    or only in that last flush depends on the buffering of the stream,
    which the programs do not set; [stdout_fate] ranges over all of it.
    [stdout_drained w] is how much of the text that the stream took has
    left its buffer when the process ends without a successful flush. *)
Record world := {
  stdout_fate : nat -> fate;
  stdout_drained : nat
}.

(** [stdout p] is the text the stream has taken so far, [writes p] the
    number of uses made of it. *)
Record process := {
  host : world;
  stdout : string;
  writes : nat
}.

(** [other_exception] is whatever separately compiled code may throw. *)
Inductive exception := system_error | format_error | other_exception.

(** How a computation ends: with a value, with a C++ exception, killed
    by a signal, in undefined behaviour, or never. *)
Inductive outcome (A : Type) :=
| Returned (a : A)
| Threw (e : exception)
| Killed
| Undefined
| NoReturn.

Arguments Returned {A} a.
Arguments Threw {A} e.
Arguments Killed {A}.
Arguments Undefined {A}.
Arguments NoReturn {A}.

Definition M (A : Type) : Type := process -> outcome A * process.

Definition ret {A} (a : A) : M A := fun p => (Returned a, p).

Definition bind {A B} (c : M A) (k : A -> M B) : M B :=
  fun p =>
    match c p with
    | (Returned a, p') => k a p'
    | (Threw e, p') => (Threw e, p')
    | (Killed, p') => (Killed, p')
    | (Undefined, p') => (Undefined, p')
    | (NoReturn, p') => (NoReturn, p')
    end.

Definition throw {A} (e : exception) : M A := fun p => (Threw e, p).
Definition undefined {A} : M A := fun p => (Undefined, p).

(** A call into separately compiled code, given by how the call ends;
    the callee is a function of its arguments and leaves the process
    alone. *)
Definition call {A} (r : outcome A) : M A := fun p => (r, p).

Notation "x <- c ;; k" := (bind c (fun x => k))
  (at level 61, c at next level, right associativity).
Notation "c ;; k" := (bind c (fun _ => k))
  (at level 61, right associativity).

(** One write of [s] to standard output; when it comes back it tells
    whether the stream took all of [s]. *)
Definition fwrite (s : string) : M bool :=
  fun p =>
    let took (t : string) :=
      {| host := host p;
         stdout := stdout p ++ t;
         writes := S (writes p) |} in
    match stdout_fate (host p) (writes p) with
    | Takes => (Returned true, took s)
    | Fails k => (Returned false, took (take k s))
    | Kills => (Killed, took EmptyString)
    | Blocks => (NoReturn, took EmptyString)
    end.

Definition start (w : world) : process :=
  {| host := w; stdout := EmptyString; writes := 0 |}.

(** How the process ends, as its parent sees it: with an exit code, by
    [std::abort], by the signal of a write, never, or in a way the
    language does not tell (undefined behaviour). *)
Inductive exit_status :=
| Exited (code : Z)
| Aborted
| Signaled
| Hung
| Unpredictable.

(** What has reached the device of a text the stream took, when the
    process ends without a successful flush. *)
Definition drained (w : world) (text : string) : string :=
  take (stdout_drained w) text.

(** Running [main].  When [main] returns the process exits: the stream
    is flushed, which is one more use of it, and the returned value
    becomes the exit code whether or not the flush succeeds.  An
    exception that leaves [main] reaches [std::terminate], which aborts
    without flushing.  The second component is the text that reached
    the device. *)
Definition run (main : M Z) (w : world) : exit_status * string :=
  match main (start w) with
  | (Returned n, p) =>
      match stdout_fate w (writes p) with
      | Takes => (Exited (n mod 256), stdout p)
      | Fails _ => (Exited (n mod 256), drained w (stdout p))
      | Kills => (Signaled, drained w (stdout p))
      | Blocks => (Hung, drained w (stdout p))
      end
  | (Threw _, p) => (Aborted, drained w (stdout p))
  | (Killed, p) => (Signaled, drained w (stdout p))
  | (NoReturn, p) => (Hung, drained w (stdout p))
  | (Undefined, p) => (Unpredictable, EmptyString)
  end.

(** ** [int] *)

Definition INT_MIN : Z := - 2 ^ 31.
Definition INT_MAX : Z := 2 ^ 31 - 1.

Definition in_int (n : Z) : bool := (INT_MIN <=? n) && (n <=? INT_MAX).

(** [a + b] on [int]: overflow is undefined behaviour. *)
Definition int_add (a b : Z) : M Z :=
  if in_int (a + b) then ret (a + b) else undefined.

(** ** <cstdio> *)

Module Stdio.

Definition EOF : Z := -1.

(** The conversions the programs use: [%d] and [%%].  [None] where the
    call has undefined behaviour (a conversion without its argument, or
    one not modelled here). *)
Fixpoint format (fmt : string) (args : list Z) : option string :=
  match fmt with
  | EmptyString => Some EmptyString
  | String "%" (String "d" r) =>
      match args with
      | a :: args' => option_map (append (dec a)) (format r args')
      | [] => None
      end
  | String "%" (String "%" r) => option_map (String "%") (format r args)
  | String "%" _ => None
  | String c r => option_map (String c) (format r args)
  end.

Definition puts (s : string) : M Z :=
  ok <- fwrite (s ++ endl) ;;
  ret (if ok then 0 else EOF).

Definition printf (fmt : string) (args : list Z) : M Z :=
  match format fmt args with
  | Some s =>
      ok <- fwrite s ;;
      ret (if ok then Z.of_nat (String.length s) else -1)
  | None => undefined
  end.

End Stdio.

(** ** [double]: IEEE 754 binary64 *)

Module Double.

Definition prec : Z := 53.
Definition emax : Z := 1024.

Definition double : Type := spec_float.

(** [x + y] on [double], rounded to nearest, ties to even. *)
Definition add (x y : double) : double := SFadd prec emax x y.

Definition eqb (x y : double) : bool :=
  match x, y with
  | S754_zero s, S754_zero s' => Bool.eqb s s'
  | S754_infinity s, S754_infinity s' => Bool.eqb s s'
  | S754_nan, S754_nan => true
  | S754_finite s m e, S754_finite s' m' e' =>
      Bool.eqb s s' && Pos.eqb m m' && Z.eqb e e'
  | _, _ => false
  end.

(** The double nearest to [d * 10^k]: the value of a decimal literal of
    the source, and what [std::from_chars] recovers from a numeral. *)
Definition of_decimal (d k : Z) : double :=
  match d with
  | Z0 => S754_zero false
  | _ =>
      if 0 <=? k then binary_normalize prec emax (d * 10 ^ k) 0 false
      else
        let '(mz, ez, lz) :=
          SFdiv_core_binary prec emax (Z.abs d) 0 (10 ^ (- k)) 0 in
        binary_round_aux prec emax (d <? 0) mz ez lz
  end.

(** *** [std::to_chars (first, last, value)]

    The numeral with the fewest characters that [std::from_chars] reads
    back as the same double; among those the one nearest to the value;
    fixed notation unless scientific notation is strictly shorter
    ([charconv.to.chars]).  This is what a [{}] replacement field of
    [std::format] without format specification prints for a [double].
    [spec_float] has one NaN and no sign for it: [to_chars] gives the
    text of a NaN whose sign bit is clear, and the statements below
    that spell out the numeral of a result leave NaN aside. *)

(** A positive finite double [m * 2^e] as the fraction [num / den]. *)
Definition num (m : positive) (e : Z) : Z :=
  if 0 <=? e then Zpos m * 2 ^ e else Zpos m.
Definition den (e : Z) : Z :=
  if 0 <=? e then 1 else 2 ^ (- e).

(** [10^j <= n / d] *)
Definition pow10_le (j n d : Z) : bool :=
  if 0 <=? j then d * 10 ^ j <=? n else d <=? n * 10 ^ (- j).

(** The decimal exponent of [n / d]: the largest [j] not above [from]
    with [10^j <= n / d]. *)
Fixpoint decimal_exponent (fuel : nat) (from n d : Z) : Z :=
  match fuel with
  | O => from
  | S fuel' =>
      if pow10_le from n d then from
      else decimal_exponent fuel' (from - 1) n d
  end.

(** The two integers around [(n / d) / 10^k], the nearer first (on a
    tie, the even one). *)
Definition neighbours (n d k : Z) : list Z :=
  let n' := if 0 <=? k then n else n * 10 ^ (- k) in
  let d' := if 0 <=? k then d * 10 ^ k else d in
  let q := n' / d' in
  let r := n' mod d' in
  match 2 * r ?= d' with
  | Lt => [q; q + 1]
  | Gt => [q + 1; q]
  | Eq => if Z.even q then [q; q + 1] else [q + 1; q]
  end.

Definition round_trips (x : double) (k d : Z) : bool :=
  eqb (of_decimal d k) x.

(** Significands of [digits] decimal digits, fewest digits first. *)
Fixpoint shortest (fuel : nat) (digits : Z) (x : double) (n d e10 : Z)
  : Z * Z :=
  let k := e10 - (digits - 1) in
  let c := neighbours n d k in
  match fuel with
  | O => (hd 0 c, k)
  | S fuel' =>
      match find (round_trips x k) c with
      | Some s => (s, k)
      | None => shortest fuel' (digits + 1) x n d e10
      end
  end.

(** Drop the zeros at the end of a significand. *)
Fixpoint strip_zeros (fuel : nat) (s k : Z) : Z * Z :=
  match fuel with
  | O => (s, k)
  | S fuel' =>
      if (0 <? s) && (s mod 10 =? 0) then strip_zeros fuel' (s / 10) (k + 1)
      else (s, k)
  end.

Definition two_digits (a : Z) : string :=
  if a <? 10 then String "0" (dec a) else dec a.

(** [d.ddde+XX] for the digits [ds] and the exponent [e] of the first. *)
Definition scientific (ds : string) (e : Z) : string :=
  match ds with
  | EmptyString => EmptyString
  | String c rest =>
      String c
        ((match rest with
          | EmptyString => EmptyString
          | _ => String "." rest
          end)
         ++ String "e"
              ((if e <? 0 then "-" else "+") ++ two_digits (Z.abs e)))
  end.

(** Fixed notation of [ds * 10^k]; a value without fractional digits is
    an integer and is printed in full ([whole] is that integer). *)
Definition fixed (whole : Z) (ds : string) (k : Z) : string :=
  if 0 <=? k then dec whole
  else
    let n := String.length ds in
    let f := Z.to_nat (- k) in
    if (f <? n)%nat then take (n - f) ds ++ String "." (drop (n - f) ds)
    else "0." ++ zeros (f - n) ++ ds.

Definition to_chars_finite (x : double) (m : positive) (e : Z) : string :=
  let n := num m e in
  let d := den e in
  let e10 := decimal_exponent 640 310 n d in
  let '(s, k) := shortest 16 1 x n d e10 in
  let '(s, k) := strip_zeros 17 s k in
  let ds := dec s in
  let fx := fixed (n / d) ds k in
  let sc := scientific ds (k + Z.of_nat (String.length ds) - 1) in
  if (String.length fx <=? String.length sc)%nat then fx else sc.

Definition to_chars (x : double) : string :=
  match x with
  | S754_nan => "nan"
  | S754_infinity s => (if s then "-" else "") ++ "inf"
  | S754_zero s => (if s then "-" else "") ++ "0"
  | S754_finite s m e =>
      (if s then "-" else "") ++ to_chars_finite (S754_finite false m e) m e
  end.

End Double.

(** ** <print> *)

Module Print.

Inductive format_arg :=
| arg_int (n : Z)
| arg_double (x : Double.double).

(** A [{}] replacement field without format specification. *)
Definition format_default (a : format_arg) : string :=
  match a with
  | arg_int n => dec n
  | arg_double x => Double.to_chars x
  end.

(** [std::vformat] for format strings made of text, [{}], and the
    escapes [{{] and [}}].  [None] where the format string is refused
    (the compiler refuses it already, [std::format_string] being checked
    at compile time). *)
Fixpoint vformat (fmt : string) (args : list format_arg) : option string :=
  match fmt with
  | EmptyString => Some EmptyString
  | String "{" (String "{" r) => option_map (String "{") (vformat r args)
  | String "{" (String "}" r) =>
      match args with
      | a :: args' =>
          option_map (append (format_default a)) (vformat r args')
      | [] => None
      end
  | String "{" _ => None
  | String "}" (String "}" r) => option_map (String "}") (vformat r args)
  | String "}" _ => None
  | String c r => option_map (String c) (vformat r args)
  end.

(** [std::println (fmt, args...)]: the formatted text and a newline go to
    [stdout] in one write; [std::system_error] when the write fails
    ([print.fun]). *)
Definition println (fmt : string) (args : list format_arg) : M unit :=
  match vformat fmt args with
  | Some s =>
      ok <- fwrite (s ++ endl) ;;
      if ok then ret tt else throw system_error
  | None => throw format_error
  end.

End Print.

(** ** all/test_package_old/main.cpp *)

Module TestPackage.

Import Stdio.

Definition main : M Z :=
  let a := 5 in
  let b := 12 in
  c <- int_add a b ;;
  puts "Hello, world!" ;;
  printf ("a = %d, b = %d" ++ endl) [a; b] ;;
  printf ("a + b = c = %d" ++ endl) [c] ;;
  ret 0.

End TestPackage.

(** ** demos/cpp-modules/main.cpp *)

Module ModulesDemo.

Import Print.

(** [import test_module;] brings in [test::sum], which [main] calls once
    on two [int]s and once on two [double]s.  The module is compiled
    separately; here it is whatever implements this interface. *)
Record test_module := {
  sum_int : Z -> Z -> outcome Z;
  sum_double : Double.double -> Double.double -> outcome Double.double
}.

(** The literals [7.2] and [2.5]. *)
Definition lit_7_2 : Double.double := Double.of_decimal 72 (-1).
Definition lit_2_5 : Double.double := Double.of_decimal 25 (-1).

(** U+1F44B WAVING HAND SIGN and U+1F310 GLOBE WITH MERIDIANS, in UTF-8. *)
Definition waving_hand : string := bytes [240; 159; 145; 139]%nat.
Definition globe : string := bytes [240; 159; 140; 144]%nat.

Definition main (T : test_module) : M Z :=
  println (endl ++ "========== RUNNING MODULES DEMO ==========") [] ;;
  println "GNU Toolchain Demo!" [] ;;
  println (waving_hand ++ " Hello, " ++ globe ++ " World") [] ;;
  x <- call (sum_int T 5 6) ;;
  println "sum(5, 6) = {}" [arg_int x] ;;
  y <- call (sum_double T lit_7_2 lit_2_5) ;;
  println "sum(7.2, 2.5) = {}" [arg_double y] ;;
  println ("========== DEMO FINISHED ==========" ++ endl) [] ;;
  ret 0.

(** Modelled from the spec: the separately built unit that exposes
    [sum], a callable that "accepts two numeric arguments of matching
    type and returns their sum"; its source is not among the files of
    the two programs. *)
Definition adding_module : test_module := {|
  sum_int := fun a b => if in_int (a + b) then Returned (a + b) else Undefined;
  sum_double := fun x y => Returned (Double.add x y)
|}.

End ModulesDemo.

(** ** What the statements below talk about *)

(** The stream takes all it is given, in every call and in the flush at
    exit. *)
Definition accepts_all (w : world) : Prop :=
  forall i, stdout_fate w i = Takes.

(** A call that comes back: with a value or with an exception. *)
Definition terminates {A} (o : outcome A) : Prop :=
  match o with
  | Returned _ | Threw _ => True
  | Killed | Undefined | NoReturn => False
  end.

(** [test::sum] returns normally on the two calls [main] makes. *)
Definition sum_returns (T : ModulesDemo.test_module) : Prop :=
  (exists x, ModulesDemo.sum_int T 5 6 = Returned x) /\
  (exists y,
     ModulesDemo.sum_double T ModulesDemo.lit_7_2 ModulesDemo.lit_2_5
     = Returned y).

(** [test::sum] terminates on the two calls [main] makes. *)
Definition sum_terminates (T : ModulesDemo.test_module) : Prop :=
  terminates (ModulesDemo.sum_int T 5 6) /\
  terminates (ModulesDemo.sum_double T ModulesDemo.lit_7_2 ModulesDemo.lit_2_5).

(** [test::sum] returns the sum of its arguments: on [int] wherever the
    sum is an [int], on [double] the IEEE 754 sum. *)
Definition sum_adds (T : ModulesDemo.test_module) : Prop :=
  (forall a b, in_int a = true -> in_int b = true -> in_int (a + b) = true ->
     ModulesDemo.sum_int T a b = Returned (a + b)) /\
  (forall x y, ModulesDemo.sum_double T x y = Returned (Double.add x y)).

(** What the modules demo prints when the two calls return [x] and [y]
    (for [y] other than a NaN, see [Double.to_chars]). *)
Definition demo_lines (x : Z) (y : Double.double) : list string :=
  [ "";
    "========== RUNNING MODULES DEMO ==========";
    "GNU Toolchain Demo!";
    "👋 Hello, 🌐 World";
    "sum(5, 6) = " ++ dec x;
    "sum(7.2, 2.5) = " ++ Double.to_chars y;
    "========== DEMO FINISHED ==========";
    "" ].

Definition unlines (l : list string) : string :=
  fold_right (fun s r => s ++ endl ++ r) EmptyString l.

(** The bytes of a text, as numbers. *)
Definition codes (s : string) : list nat :=
  map nat_of_ascii (list_ascii_of_string s).

(** The numbers a reader finds on a line: its words, cut at blanks and
    commas, that are decimal numerals. *)
Definition is_separator (c : ascii) : bool :=
  Ascii.eqb c " "%char || Ascii.eqb c ","%char.

Fixpoint words_from (cur : string) (s : string) : list string :=
  match s with
  | EmptyString => match cur with EmptyString => [] | _ => [cur] end
  | String c r =>
      if is_separator c then
        match cur with
        | EmptyString => words_from EmptyString r
        | _ => cur :: words_from EmptyString r
        end
      else words_from (cur ++ String c EmptyString) r
  end.

Definition numbers_on (line : string) : list Z :=
  flat_map
    (fun w => match NilZero.int_of_string w with
              | Some d => [Z.of_int d]
              | None => []
              end)
    (words_from EmptyString line).

(** A computation that, when the stream takes its next [n] writes,
    returns [a] after adding [s] to the text of the stream in those [n]
    writes. *)
Definition prints {A} (n : nat) (c : M A) (s : string) (a : A) : Prop :=
  forall p,
    (forall i, (writes p <= i < writes p + n)%nat ->
       stdout_fate (host p) i = Takes) ->
    c p = (Returned a,
           {| host := host p;
              stdout := stdout p ++ s;
              writes := writes p + n |}).

(** The three lines of the test package. *)
Definition test_package_text : string :=
  "Hello, world!" ++ endl ++
  "a = 5, b = 12" ++ endl ++
  "a + b = c = 17" ++ endl.

(** What stops a sequence of calls at one use of the stream.  A write
    the stream reports as failed stops [std::println], which throws,
    and does not stop the C functions, which return an error value. *)
Inductive stop := stop_throw | stop_kill | stop_block.

Definition halts (throwing : bool) (f : fate) : option stop :=
  match f with
  | Takes => None
  | Fails _ => if throwing then Some stop_throw else None
  | Kills => Some stop_kill
  | Blocks => Some stop_block
  end.

(** The first stop among the [n] uses of the stream from the [i]-th. *)
Fixpoint first_halt (throwing : bool) (fates : nat -> fate) (i n : nat)
  : option stop :=
  match n with
  | O => None
  | S n' =>
      match halts throwing (fates i) with
      | Some s => Some s
      | None => first_halt throwing fates (S i) n'
      end
  end.

Definition ended {A} (s : stop) : outcome A :=
  match s with
  | stop_throw => Threw system_error
  | stop_kill => Killed
  | stop_block => NoReturn
  end.

Definition status_of (s : stop) : exit_status :=
  match s with
  | stop_throw => Aborted
  | stop_kill => Signaled
  | stop_block => Hung
  end.

(** A computation that makes [n] writes one after the other: it ends at
    the first that stops it, the way that one stops it, and otherwise
    returns a value satisfying [Q] after exactly [n] writes. *)
Definition runs_through {A} (throwing : bool) (n : nat) (c : M A)
    (Q : A -> Prop) : Prop :=
  forall p, exists o p',
    c p = (o, p') /\ host p' = host p /\
    match first_halt throwing (stdout_fate (host p)) (writes p) n with
    | None =>
        (exists a, o = Returned a /\ Q a) /\
        writes p' = (writes p + n)%nat
    | Some s => o = ended s
    end.


(** A call that ends by an exception, by a signal, or never. *)
Definition breaks_off {A} (o : outcome A) : Prop :=
  match o with
  | Threw _ | Killed | NoReturn => True
  | Returned _ | Undefined => False
  end.

(** How such a call ends its caller. *)
Definition escapes {A B} (o : outcome A) : outcome B :=
  match o with
  | Threw e => Threw e
  | Killed => Killed
  | _ => NoReturn
  end.

(** The lines the modules demo prints before it calls [test::sum]. *)
Definition demo_banner : list string :=
  [ "";
    "========== RUNNING MODULES DEMO ==========";
    "GNU Toolchain Demo!";
    "👋 Hello, 🌐 World" ].

(** Some invocations: on a stream that takes everything; on an
    unbuffered stream onto a device with no room, where every write is
    reported as failed; on a terminal that goes away after the third
    line; on an unbuffered stream onto a pipe that is full and never
    read. *)
Definition terminal : world := {|
  stdout_fate := fun _ => Takes;
  stdout_drained := 0
|}.

Definition full_device : world := {|
  stdout_fate := fun _ => Fails 0;
  stdout_drained := 0
|}.

Definition lost_terminal : world := {|
  stdout_fate := fun i => if (i <? 3)%nat then Takes else Fails 5;
  stdout_drained := 92
|}.

Definition stuck_pipe : world := {|
  stdout_fate := fun _ => Blocks;
  stdout_drained := 0
|}.

(** Two modules for trying things out: one whose [sum] throws on [int]s,
    one whose [sum] adds [int]s and never comes back on [double]s. *)
Definition throwing_module : ModulesDemo.test_module := {|
  ModulesDemo.sum_int := fun _ _ => Threw other_exception;
  ModulesDemo.sum_double := fun x y => Returned (Double.add x y)
|}.

Definition looping_module : ModulesDemo.test_module := {|
  ModulesDemo.sum_int := fun a b => Returned (a + b);
  ModulesDemo.sum_double := fun _ _ => NoReturn
|}.

(** Well-formed UTF-8 (Unicode Standard, table 3-7): no stray or missing
    continuation byte, no overlong form, no surrogate, nothing above
    U+10FFFF. *)
Definition continuation (b : N) : bool := ((128 <=? b) && (b <=? 191))%N.

Fixpoint utf8 (s : string) : bool :=
  match s with
  | EmptyString => true
  | String c0 r0 =>
      let b0 := N_of_ascii c0 in
      if (b0 <? 128)%N then utf8 r0
      else
        match r0 with
        | EmptyString => false
        | String c1 r1 =>
            let b1 := N_of_ascii c1 in
            if ((194 <=? b0) && (b0 <=? 223))%N then continuation b1 && utf8 r1
            else
              match r1 with
              | EmptyString => false
              | String c2 r2 =>
                  let b2 := N_of_ascii c2 in
                  if ((224 <=? b0) && (b0 <=? 239))%N then
                    continuation b1 && continuation b2 &&
                    (if (b0 =? 224)%N then (160 <=? b1)%N else true) &&
                    (if (b0 =? 237)%N then (b1 <=? 159)%N else true) &&
                    utf8 r2
                  else
                    match r2 with
                    | EmptyString => false
                    | String c3 r3 =>
                        let b3 := N_of_ascii c3 in
                        ((240 <=? b0) && (b0 <=? 244))%N &&
                        continuation b1 && continuation b2 &&
                        continuation b3 &&
                        (if (b0 =? 240)%N then (144 <=? b1)%N else true) &&
                        (if (b0 =? 244)%N then (b1 <=? 143)%N else true) &&
                        utf8 r3
                    end
              end
        end
  end.

(** Texts of ASCII bytes only. *)
Fixpoint ascii_only (s : string) : bool :=
  match s with
  | EmptyString => true
  | String c r => (N_of_ascii c <? 128)%N && ascii_only r
  end.

(** * Proofs *)

(** ** Texts *)

Lemma append_empty_r (s : string) : s ++ "" = s.
Proof. induction s as [|c s IH]; simpl; [reflexivity | now rewrite IH]. Qed.

Lemma append_assoc (a b c : string) : (a ++ b) ++ c = a ++ (b ++ c).
Proof. induction a as [|x a IH]; simpl; [reflexivity | now rewrite IH]. Qed.

Lemma length_append (a b : string) :
  String.length (a ++ b) = (String.length a + String.length b)%nat.
Proof. induction a as [|x a IH]; simpl; [reflexivity | now rewrite IH]. Qed.

Lemma count_nl_append (a b : string) :
  count_nl (a ++ b) = (count_nl a + count_nl b)%nat.
Proof.
  induction a as [|x a IH]; simpl; [reflexivity|].
  rewrite IH. lia.
Qed.

Lemma count_nl_take (n : nat) (s : string) :
  count_nl s = 0%nat -> count_nl (take n s) = 0%nat.
Proof.
  revert s. induction n as [|n IH]; intros [|c s]; simpl; try reflexivity.
  destruct (Ascii.eqb c nl); simpl; [discriminate | apply IH].
Qed.

Lemma count_nl_drop (n : nat) (s : string) :
  count_nl s = 0%nat -> count_nl (drop n s) = 0%nat.
Proof.
  revert s. induction n as [|n IH]; intros [|c s]; simpl; try tauto.
  destruct (Ascii.eqb c nl); simpl; [discriminate | apply IH].
Qed.

Lemma count_nl_zeros (n : nat) : count_nl (zeros n) = 0%nat.
Proof. induction n as [|n IH]; simpl; [reflexivity | exact IH]. Qed.

Lemma count_nl_uint (u : Decimal.uint) :
  count_nl (NilEmpty.string_of_uint u) = 0%nat.
Proof. induction u; simpl; auto. Qed.

Lemma count_nl_dec (n : Z) : count_nl (dec n) = 0%nat.
Proof.
  unfold dec, NilZero.string_of_int, NilZero.string_of_uint.
  destruct (Z.to_int n) as [u|u]; destruct u; simpl;
    auto using count_nl_uint.
Qed.

(** A line that holds no newline is cut off whole. *)
Lemma split_lines_line (a cur rest : string) :
  count_nl a = 0%nat ->
  split_lines cur (a ++ String nl rest)
  = (cur ++ a) :: split_lines EmptyString rest.
Proof.
  revert cur. induction a as [|c a IH]; intros cur H; simpl.
  - now rewrite append_empty_r.
  - simpl in H. destruct (Ascii.eqb c nl); [discriminate|].
    rewrite IH by exact H. now rewrite append_assoc.
Qed.

Lemma lines_unlines (l : list string) :
  Forall (fun s => count_nl s = 0%nat) l -> lines (unlines l) = l.
Proof.
  unfold lines. induction 1 as [|s l Hs _ IH]; simpl; [reflexivity|].
  unfold endl. simpl. rewrite split_lines_line by exact Hs.
  simpl. now rewrite IH.
Qed.

Lemma count_nl_unlines (l : list string) :
  Forall (fun s => count_nl s = 0%nat) l ->
  count_nl (unlines l) = List.length l.
Proof.
  induction 1 as [|s l Hs _ IH]; simpl; [reflexivity|].
  rewrite count_nl_append, Hs. simpl. now rewrite IH.
Qed.

(** ** Numerals of doubles hold no newline *)

Lemma count_nl_two_digits (a : Z) : count_nl (Double.two_digits a) = 0%nat.
Proof.
  unfold Double.two_digits. destruct (a <? 10); simpl; apply count_nl_dec.
Qed.

Lemma count_nl_scientific (ds : string) (e : Z) :
  count_nl ds = 0%nat -> count_nl (Double.scientific ds e) = 0%nat.
Proof.
  unfold Double.scientific. destruct ds as [|c rest]; [reflexivity|].
  simpl. destruct (Ascii.eqb c nl); [discriminate|]. simpl. intros H.
  rewrite count_nl_append. simpl. rewrite count_nl_append, count_nl_two_digits.
  destruct rest; [|simpl in *; rewrite H]; destruct (e <? 0); reflexivity.
Qed.

Lemma count_nl_fixed (whole : Z) (ds : string) (k : Z) :
  count_nl ds = 0%nat -> count_nl (Double.fixed whole ds k) = 0%nat.
Proof.
  intros H. unfold Double.fixed.
  destruct (0 <=? k); [apply count_nl_dec|].
  destruct (_ <? _)%nat.
  - rewrite count_nl_append. simpl.
    now rewrite count_nl_take, count_nl_drop.
  - simpl. now rewrite count_nl_append, count_nl_zeros.
Qed.

Lemma count_nl_to_chars_finite (x : Double.double) (m : positive) (e : Z) :
  count_nl (Double.to_chars_finite x m e) = 0%nat.
Proof.
  unfold Double.to_chars_finite.
  destruct (Double.shortest _ _ _ _ _ _) as [s k].
  destruct (Double.strip_zeros _ _ _) as [s' k'].
  destruct (_ <=? _)%nat;
    [apply count_nl_fixed | apply count_nl_scientific]; apply count_nl_dec.
Qed.

Lemma count_nl_to_chars (x : Double.double) :
  count_nl (Double.to_chars x) = 0%nat.
Proof.
  destruct x as [s|s| |s m e]; unfold Double.to_chars;
    try (destruct s; reflexivity); [reflexivity|].
  rewrite count_nl_append, count_nl_to_chars_finite.
  destruct s; reflexivity.
Qed.

(** ** Parts of a text *)


Lemma take_whole (k : nat) (s : string) :
  String.length (take k s) = String.length s -> take k s = s.
Proof.
  revert s. induction k as [|k IH]; intros [|c s]; simpl;
    try reflexivity; try discriminate.
  intros H. rewrite IH; [reflexivity | congruence].
Qed.

Lemma drop_short (k : nat) (s : string) :
  String.length (take k s) <> String.length s -> drop k s <> EmptyString.
Proof.
  revert s. induction k as [|k IH]; intros [|c s]; simpl;
    try congruence.
  intros H. apply IH. congruence.
Qed.

Lemma append_cancel_empty (t r : string) : t = t ++ r -> r = EmptyString.
Proof.
  induction t as [|c t IH]; simpl; [congruence|].
  intros H. apply IH. congruence.
Qed.

Lemma append_not_empty (r u : string) :
  r <> EmptyString -> r ++ u <> EmptyString.
Proof. destruct r; simpl; congruence. Qed.

(** ** Rules for the computations *)

Section Rules.

Context {A B : Type}.

Lemma prints_ret (a : A) : prints 0 (ret a) "" a.
Proof.
  intros [w out n] _. unfold ret. simpl.
  now rewrite append_empty_r, Nat.add_0_r.
Qed.

Lemma prints_call (a : A) (r : outcome A) :
  r = Returned a -> prints 0 (call r) "" a.
Proof.
  intros -> [w out n] _. unfold call. simpl.
  now rewrite append_empty_r, Nat.add_0_r.
Qed.

Lemma prints_bind (n m t : nat) (c : M A) (k : A -> M B)
    (s u v : string) (a : A) (b : B) :
  prints n c s a -> prints m (k a) u b ->
  (n + m)%nat = t -> s ++ u = v ->
  prints t (bind c k) v b.
Proof.
  intros Hc Hk <- <- p Hp. unfold bind.
  rewrite (Hc p) by (intros i Hi; apply Hp; lia).
  rewrite Hk by (simpl; intros i Hi; apply Hp; lia). simpl.
  now rewrite append_assoc, Nat.add_assoc.
Qed.

End Rules.

Lemma halts_throwing (f : fate) : halts true f = None <-> f = Takes.
Proof. destruct f; simpl; split; congruence. Qed.

Lemma halts_returning (f : fate) :
  halts false f = None <-> f <> Kills /\ f <> Blocks.
Proof.
  destruct f; simpl; split; try congruence; try (split; congruence);
    intros [H1 H2]; congruence.
Qed.

Lemma first_halt_add (t : bool) (f : nat -> fate) (i n m : nat) :
  first_halt t f i (n + m)
  = match first_halt t f i n with
    | Some s => Some s
    | None => first_halt t f (i + n) m
    end.
Proof.
  revert i. induction n as [|n IH]; intros i; simpl.
  - now rewrite Nat.add_0_r.
  - destruct (halts t (f i)); [reflexivity|].
    rewrite IH. now replace (S i + n)%nat with (i + S n)%nat by lia.
Qed.

Lemma first_halt_none (t : bool) (f : nat -> fate) (i n : nat) :
  first_halt t f i n = None <->
  forall j, (i <= j < i + n)%nat -> halts t (f j) = None.
Proof.
  revert i. induction n as [|n IH]; intros i; simpl.
  - split; [intros _ j Hj; lia | reflexivity].
  - destruct (halts t (f i)) eqn:E.
    + split; [discriminate|]. intros H.
      rewrite H in E by lia. discriminate.
    + rewrite IH. split; intros H j Hj.
      * destruct (Nat.eq_dec j i) as [->|]; [exact E | apply H; lia].
      * apply H. lia.
Qed.

Lemma first_halt_some (t : bool) (f : nat -> fate) (i n j : nat) (s : stop) :
  (i <= j < i + n)%nat ->
  (forall l, (i <= l < j)%nat -> halts t (f l) = None) ->
  halts t (f j) = Some s ->
  first_halt t f i n = Some s.
Proof.
  revert i. induction n as [|n IH]; intros i Hj Hl Hs; [lia|]. simpl.
  destruct (Nat.eq_dec j i) as [->|Hne].
  - now rewrite Hs.
  - rewrite Hl by lia. apply IH; [lia| |exact Hs].
    intros l Hl'. apply Hl. lia.
Qed.

Section Through.

Context {A B : Type}.
Variable throwing : bool.

Lemma through_ret (a : A) (Q : A -> Prop) :
  Q a -> runs_through throwing 0 (ret a) Q.
Proof.
  intros H p. exists (Returned a), p. repeat split; simpl.
  - now exists a.
  - lia.
Qed.

Lemma through_call (a : A) (r : outcome A) :
  r = Returned a -> runs_through throwing 0 (call r) (fun v => v = a).
Proof.
  intros -> p. exists (Returned a), p. repeat split; simpl.
  - now exists a.
  - lia.
Qed.

Lemma through_bind (n m t : nat) (c : M A) (k : A -> M B)
    (Q : A -> Prop) (R : B -> Prop) :
  runs_through throwing n c Q ->
  (forall a, Q a -> runs_through throwing m (k a) R) ->
  (n + m)%nat = t ->
  runs_through throwing t (bind c k) R.
Proof.
  intros Hc Hk <- p. unfold bind. rewrite first_halt_add.
  destruct (Hc p) as (o & p1 & -> & Hh & Ho).
  destruct (first_halt throwing _ (writes p) n) as [s|].
  - subst o. exists (ended s), p1.
    destruct s; simpl; auto.
  - destruct Ho as [(a & -> & Hq) Hw].
    destruct (Hk a Hq p1) as (o2 & p2 & -> & Hh2 & Ho2).
    rewrite Hh, Hw in Ho2.
    exists o2, p2. split; [reflexivity|]. split; [congruence|].
    destruct (first_halt throwing _ (writes p + n) m) as [s|];
      [exact Ho2|].
    destruct Ho2 as [Hr Hw2]. split; [exact Hr | lia].
Qed.

End Through.

(** *** One write *)

Lemma prints_fwrite (s : string) : prints 1 (fwrite s) s true.
Proof.
  intros p Hp. unfold fwrite. rewrite Hp by lia.
  now rewrite Nat.add_1_r.
Qed.

(** *** <cstdio> and <print> *)

Lemma prints_puts (s : string) : prints 1 (Stdio.puts s) (s ++ endl) 0.
Proof.
  unfold Stdio.puts.
  eapply prints_bind;
    [apply prints_fwrite | apply prints_ret | reflexivity
    | apply append_empty_r].
Qed.

Lemma prints_printf (fmt : string) (args : list Z) (s : string) :
  Stdio.format fmt args = Some s ->
  prints 1 (Stdio.printf fmt args) s (Z.of_nat (String.length s)).
Proof.
  intros H. unfold Stdio.printf. rewrite H.
  eapply prints_bind;
    [apply prints_fwrite | apply prints_ret | reflexivity
    | apply append_empty_r].
Qed.

Lemma prints_int_add (a b : Z) :
  in_int (a + b) = true -> prints 0 (int_add a b) "" (a + b).
Proof. intros H. unfold int_add. rewrite H. apply prints_ret. Qed.

Lemma prints_println (fmt : string) (args : list Print.format_arg)
    (s : string) :
  Print.vformat fmt args = Some s ->
  prints 1 (Print.println fmt args) (s ++ endl) tt.
Proof.
  intros H. unfold Print.println. rewrite H.
  eapply prints_bind;
    [apply prints_fwrite | apply (prints_ret tt) | reflexivity
    | apply append_empty_r].
Qed.

(** The C functions come back from a write the stream reports as
    failed, with an error value that says so. *)
Lemma through_puts (s : string) :
  runs_through false 1 (Stdio.puts s) (fun _ => True).
Proof.
  intros p. unfold Stdio.puts, bind, fwrite, ret. simpl.
  destruct (stdout_fate (host p) (writes p)); simpl;
    eexists _, _; (split; [reflexivity|]); (split; [reflexivity|]);
    try reflexivity; (split; [eexists; split; [reflexivity | exact I]|]);
    simpl; lia.
Qed.

Lemma through_printf (fmt : string) (args : list Z) (s : string) :
  Stdio.format fmt args = Some s ->
  runs_through false 1 (Stdio.printf fmt args) (fun _ => True).
Proof.
  intros H p. unfold Stdio.printf. rewrite H. unfold bind, fwrite, ret.
  simpl.
  destruct (stdout_fate (host p) (writes p)); simpl;
    eexists _, _; (split; [reflexivity|]); (split; [reflexivity|]);
    try reflexivity; (split; [eexists; split; [reflexivity | exact I]|]);
    simpl; lia.
Qed.

Lemma through_int_add (t : bool) (a b : Z) :
  in_int (a + b) = true ->
  runs_through t 0 (int_add a b) (fun c => c = a + b).
Proof. intros H. unfold int_add. rewrite H. now apply through_ret. Qed.

(** [std::println] throws [std::system_error] at a write the stream
    reports as failed. *)
Lemma through_println (fmt : string) (args : list Print.format_arg)
    (s : string) :
  Print.vformat fmt args = Some s ->
  runs_through true 1 (Print.println fmt args) (fun _ => True).
Proof.
  intros H p. unfold Print.println. rewrite H.
  unfold bind, fwrite, ret, throw. simpl.
  destruct (stdout_fate (host p) (writes p)); simpl;
    eexists _, _; (split; [reflexivity|]); (split; [reflexivity|]);
    try reflexivity; (split; [eexists; split; [reflexivity | exact I]|]);
    simpl; lia.
Qed.

(** *** The format strings of the two programs *)

Lemma format_ab (a b : Z) :
  Stdio.format ("a = %d, b = %d" ++ endl) [a; b]
  = Some ("a = " ++ dec a ++ ", b = " ++ dec b ++ endl).
Proof. reflexivity. Qed.

Lemma format_c (c : Z) :
  Stdio.format ("a + b = c = %d" ++ endl) [c]
  = Some ("a + b = c = " ++ dec c ++ endl).
Proof. reflexivity. Qed.

Lemma vformat_sum_int (x : Z) :
  Print.vformat "sum(5, 6) = {}" [Print.arg_int x]
  = Some ("sum(5, 6) = " ++ dec x).
Proof. simpl. now rewrite append_empty_r. Qed.

Lemma vformat_sum_double (y : Double.double) :
  Print.vformat "sum(7.2, 2.5) = {}" [Print.arg_double y]
  = Some ("sum(7.2, 2.5) = " ++ Double.to_chars y).
Proof. simpl. now rewrite append_empty_r. Qed.

(** ** all/test_package_old/main.cpp *)

Lemma test_package_prints :
  prints 3 TestPackage.main test_package_text 0.
Proof.
  unfold TestPackage.main.
  eapply prints_bind;
    [now apply prints_int_add | | reflexivity | reflexivity].
  eapply prints_bind;
    [apply prints_puts | | reflexivity | reflexivity].
  eapply prints_bind;
    [eapply prints_printf, format_ab | | reflexivity | reflexivity].
  eapply prints_bind;
    [eapply prints_printf, format_c | | reflexivity | reflexivity].
  apply prints_ret.
Qed.

(** Its three calls come one after the other, and only a signal or a
    call that blocks keeps it from [return 0]. *)
Lemma test_package_through :
  runs_through false 3 TestPackage.main (fun r => r = 0).
Proof.
  unfold TestPackage.main.
  eapply through_bind;
    [now apply through_int_add | intros c -> | reflexivity].
  eapply through_bind; [apply through_puts | intros _ _ | reflexivity].
  eapply through_bind;
    [eapply through_printf, format_ab | intros _ _ | reflexivity].
  eapply through_bind;
    [eapply through_printf, format_c | intros _ _ | reflexivity].
  now apply through_ret.
Qed.

(** ** demos/cpp-modules/main.cpp *)

Section Demo.

Context (T : ModulesDemo.test_module).

Lemma demo_prints (x : Z) (y : Double.double) :
  ModulesDemo.sum_int T 5 6 = Returned x ->
  ModulesDemo.sum_double T ModulesDemo.lit_7_2 ModulesDemo.lit_2_5
  = Returned y ->
  prints 6 (ModulesDemo.main T) (unlines (demo_lines x y)) 0.
Proof.
  intros Hx Hy. unfold ModulesDemo.main.
  eapply prints_bind;
    [eapply prints_println; reflexivity | | reflexivity | reflexivity].
  eapply prints_bind;
    [eapply prints_println; reflexivity | | reflexivity | reflexivity].
  eapply prints_bind;
    [eapply prints_println; reflexivity | | reflexivity | reflexivity].
  eapply prints_bind;
    [apply prints_call, Hx | | reflexivity | reflexivity].
  eapply prints_bind;
    [eapply prints_println, vformat_sum_int | | reflexivity | ].
  2: { simpl. rewrite (append_assoc _ endl). reflexivity. }
  eapply prints_bind;
    [apply prints_call, Hy | | reflexivity | reflexivity].
  eapply prints_bind;
    [eapply prints_println, vformat_sum_double | | reflexivity | ].
  2: { simpl. rewrite (append_assoc _ endl). reflexivity. }
  eapply prints_bind;
    [eapply prints_println; reflexivity | | reflexivity | reflexivity].
  apply prints_ret.
Qed.

(** When [test::sum] returns, its six calls of [std::println] come one
    after the other, and the first that does not succeed ends it. *)
Lemma demo_through :
  sum_returns T ->
  runs_through true 6 (ModulesDemo.main T) (fun r => r = 0).
Proof.
  intros [[x Hx] [y Hy]]. unfold ModulesDemo.main.
  eapply through_bind;
    [eapply through_println; reflexivity | intros _ _ | reflexivity].
  eapply through_bind;
    [eapply through_println; reflexivity | intros _ _ | reflexivity].
  eapply through_bind;
    [eapply through_println; reflexivity | intros _ _ | reflexivity].
  eapply through_bind; [apply through_call, Hx | intros ? -> | reflexivity].
  eapply through_bind;
    [eapply through_println, vformat_sum_int | intros _ _ | reflexivity].
  eapply through_bind; [apply through_call, Hy | intros ? -> | reflexivity].
  eapply through_bind;
    [eapply through_println, vformat_sum_double | intros _ _ | reflexivity].
  eapply through_bind;
    [eapply through_println; reflexivity | intros _ _ | reflexivity].
  now apply through_ret.
Qed.

End Demo.

(** ** Whole runs *)

Lemma run_prints (main : M Z) (n : nat) (s : string) (a : Z) (w : world) :
  prints n main s a -> accepts_all w ->
  main (start w) = (Returned a, {| host := w; stdout := s; writes := n |})
  /\ run main w = (Exited (a mod 256), s).
Proof.
  intros H Hw. unfold run.
  rewrite (H (start w)) by (intros i _; apply Hw).
  simpl. now rewrite Hw.
Qed.

Lemma main_through (t : bool) (n : nat) (main : M Z) (w : world) :
  runs_through t n main (fun r => r = 0) ->
  match first_halt t (stdout_fate w) 0 n with
  | None => exists p, main (start w) = (Returned 0, p) /\ writes p = n
  | Some s => exists p, main (start w) = (ended s, p)
  end.
Proof.
  intros H. destruct (H (start w)) as (o & p & Heq & _ & Ho).
  simpl in Ho. destruct (first_halt t (stdout_fate w) 0 n) as [s|].
  - subst o. now exists p.
  - destruct Ho as [(a & -> & ->) Hw]. now exists p.
Qed.

Lemma run_status (t : bool) (n : nat) (main : M Z) (w : world) :
  runs_through t n main (fun r => r = 0) ->
  fst (run main w)
  = match first_halt t (stdout_fate w) 0 n with
    | Some s => status_of s
    | None =>
        match halts false (stdout_fate w n) with
        | Some s => status_of s
        | None => Exited 0
        end
    end.
Proof.
  intros H. pose proof (main_through t n main w H) as Hm. unfold run.
  destruct (first_halt t (stdout_fate w) 0 n) as [s|].
  - destruct Hm as [p ->]. now destruct s.
  - destruct Hm as (p & -> & ->). now destruct (stdout_fate w n).
Qed.

Lemma exit_zero_iff (t : bool) (n : nat) (main : M Z) (w : world) :
  runs_through t n main (fun r => r = 0) ->
  fst (run main w) = Exited 0 <->
  (forall j, (j < n)%nat -> halts t (stdout_fate w j) = None) /\
  halts false (stdout_fate w n) = None.
Proof.
  intros H. rewrite (run_status t n main w H).
  destruct (first_halt t (stdout_fate w) 0 n) as [s|] eqn:E.
  - split; [now destruct s|]. intros [Hj _].
    rewrite (proj2 (first_halt_none t _ 0 n)) in E; [discriminate|].
    intros j Hj'. apply Hj. lia.
  - rewrite first_halt_none in E.
    destruct (halts false (stdout_fate w n)) as [s|].
    + split; [now destruct s | intros [_ ?]; discriminate].
    + split; [|reflexivity]. intros _. split; [|reflexivity].
      intros j Hj. apply E. lia.
Qed.

Lemma returns_zero_iff (t : bool) (n : nat) (main : M Z) (w : world) :
  runs_through t n main (fun r => r = 0) ->
  fst (main (start w)) = Returned 0 <->
  forall j, (j < n)%nat -> halts t (stdout_fate w j) = None.
Proof.
  intros H. pose proof (main_through t n main w H) as Hm.
  destruct (first_halt t (stdout_fate w) 0 n) as [s|] eqn:E.
  - destruct Hm as [p ->]. split; [now destruct s|]. intros Hj.
    rewrite (proj2 (first_halt_none t _ 0 n)) in E; [discriminate|].
    intros j Hj'. apply Hj. lia.
  - destruct Hm as (p & -> & _). rewrite first_halt_none in E.
    split; [|reflexivity]. intros _ j Hj. apply E. lia.
Qed.

Lemma stopped_at (t : bool) (n : nat) (main : M Z) (w : world)
    (j : nat) (s : stop) :
  runs_through t n main (fun r => r = 0) ->
  (j < n)%nat ->
  (forall l, (l < j)%nat -> halts t (stdout_fate w l) = None) ->
  halts t (stdout_fate w j) = Some s ->
  fst (main (start w)) = ended s /\ fst (run main w) = status_of s.
Proof.
  intros H Hj Hl Hs.
  assert (E : first_halt t (stdout_fate w) 0 n = Some s).
  { apply (first_halt_some t _ 0 n j); [lia | | exact Hs].
    intros l Hl'. apply Hl. lia. }
  pose proof (main_through t n main w H) as Hm.
  rewrite (run_status t n main w H). rewrite E in *.
  destruct Hm as [p ->]. split; reflexivity.
Qed.

Lemma first_halt_returning (f : nat -> fate) (i n : nat) :
  first_halt false f i n <> Some stop_throw.
Proof.
  revert i. induction n as [|n IH]; intros i; simpl; [discriminate|].
  destruct (f i); simpl; try discriminate; apply IH.
Qed.

Lemma demo_lines_plain (x : Z) (y : Double.double) :
  Forall (fun s => count_nl s = 0%nat) (demo_lines x y).
Proof.
  unfold demo_lines. repeat constructor.
  - simpl. apply count_nl_dec.
  - simpl. apply count_nl_to_chars.
Qed.

(** The double nearest to 7.2 plus 2.5 is the double nearest to 9.7, and
    9.7 is its shortest numeral. *)
Lemma sum_7_2_2_5 :
  Double.add ModulesDemo.lit_7_2 ModulesDemo.lit_2_5
  = Double.of_decimal 97 (-1).
Proof. vm_compute. reflexivity. Qed.

Lemma to_chars_9_7 : Double.to_chars (Double.of_decimal 97 (-1)) = "9.7".
Proof. vm_compute. reflexivity. Qed.

(** * The specification, claim by claim *)

(** C1.  Invoked on a standard output that accepts what is written to it,
    the test package prints exactly three lines: the greeting, the line
    with a = 5 and b = 12, and the line with their sum c = 17, in that
    order and nothing else. *)
Theorem test_package_output (w : world) :
  accepts_all w ->
  snd (run TestPackage.main w) = test_package_text /\
  lines (snd (run TestPackage.main w))
  = ["Hello, world!"; "a = 5, b = 12"; "a + b = c = 17"].
Proof.
  intros Hw.
  destruct (run_prints _ _ _ _ w test_package_prints Hw) as [_ ->].
  split; reflexivity.
Qed.

Lemma test_package_output_terminal :
  accepts_all terminal /\
  snd (run TestPackage.main terminal) = test_package_text /\
  lines (snd (run TestPackage.main terminal))
  = ["Hello, world!"; "a = 5, b = 12"; "a + b = c = 17"].
Proof.
  split; [intros i; reflexivity|].
  apply (test_package_output terminal). intros i. reflexivity.
Defined.

(** C2.  When [test::sum] returns the sum of its arguments, the modules
    demo, on a standard output that accepts what is written to it,
    prints the line "sum(5, 6) = 11" and the line "sum(7.2, 2.5) = 9.7",
    the latter being the shortest numeral of the double 7.2 + 2.5. *)
Theorem demo_prints_sums (T : ModulesDemo.test_module) (w : world) :
  sum_adds T -> accepts_all w ->
  In "sum(5, 6) = 11" (lines (snd (run (ModulesDemo.main T) w))) /\
  In "sum(7.2, 2.5) = 9.7" (lines (snd (run (ModulesDemo.main T) w))).
Proof.
  intros [Hi Hd] Hw.
  assert (Hx : ModulesDemo.sum_int T 5 6 = Returned 11)
    by (apply (Hi 5 6); reflexivity).
  pose proof (Hd ModulesDemo.lit_7_2 ModulesDemo.lit_2_5) as Hy.
  destruct (run_prints _ _ _ _ w (demo_prints T _ _ Hx Hy) Hw) as [_ ->].
  cbv [snd]. rewrite lines_unlines by apply demo_lines_plain.
  unfold demo_lines. rewrite sum_7_2_2_5, to_chars_9_7.
  split; simpl; tauto.
Qed.

Lemma demo_prints_sums_terminal :
  sum_adds ModulesDemo.adding_module /\ accepts_all terminal /\
  In "sum(5, 6) = 11"
     (lines (snd (run (ModulesDemo.main ModulesDemo.adding_module)
                      terminal))) /\
  In "sum(7.2, 2.5) = 9.7"
     (lines (snd (run (ModulesDemo.main ModulesDemo.adding_module)
                      terminal))).
Proof.
  split; [|split].
  - split; [|reflexivity]. intros a b _ _ H. simpl. rewrite H. reflexivity.
  - intros i. reflexivity.
  - apply (demo_prints_sums ModulesDemo.adding_module terminal).
    + split; [|reflexivity]. intros a b _ _ H. simpl. rewrite H. reflexivity.
    + intros i. reflexivity.
Defined.

(** C3, as the code has it.  Neither program sets an exit code other
    than 0, but whether the process gets to exit depends on its calls.
    The test package exits with code 0 exactly when none of its three
    output calls, nor the flush at exit, is cut off by a signal or
    blocks: what the calls report does not matter.  The modules demo,
    when [test::sum] returns, exits with code 0 exactly when each of
    its six [std::println] calls succeeds and the flush at exit is not
    cut off by a signal and does not block; when the stream reports a
    failed write to a [std::println], that call throws, [main] does not
    catch the exception, and the process is aborted. *)
Theorem exit_code_zero :
  (forall w,
     fst (run TestPackage.main w) = Exited 0 <->
     forall i, (i <= 3)%nat ->
       stdout_fate w i <> Kills /\ stdout_fate w i <> Blocks) /\
  (forall (T : ModulesDemo.test_module) w,
     sum_returns T ->
     (fst (run (ModulesDemo.main T) w) = Exited 0 <->
      (forall i, (i < 6)%nat -> stdout_fate w i = Takes) /\
      stdout_fate w 6 <> Kills /\ stdout_fate w 6 <> Blocks)) /\
  (forall (T : ModulesDemo.test_module) w j k,
     sum_returns T ->
     (j < 6)%nat ->
     (forall i, (i < j)%nat -> stdout_fate w i = Takes) ->
     stdout_fate w j = Fails k ->
     fst (run (ModulesDemo.main T) w) = Aborted).
Proof.
  split; [|split].
  - intros w. rewrite (exit_zero_iff false 3 _ w test_package_through).
    split.
    + intros [Hj H3] i Hi. apply halts_returning.
      destruct (Nat.eq_dec i 3) as [->|]; [exact H3 | apply Hj; lia].
    + intros H. split; [intros j Hj|]; apply halts_returning, H; lia.
  - intros T w HT.
    rewrite (exit_zero_iff true 6 _ w (demo_through T HT)).
    rewrite halts_returning. split; intros [Hj H6]; (split; [|exact H6]);
      intros i Hi; apply halts_throwing, Hj, Hi.
  - intros T w j k HT Hj Hl Hf.
    apply (stopped_at true 6 _ w j stop_throw (demo_through T HT) Hj).
    + intros l Hl'. apply halts_throwing, Hl, Hl'.
    + now rewrite Hf.
Qed.

Lemma exit_code_zero_samples :
  sum_returns ModulesDemo.adding_module /\
  fst (run (ModulesDemo.main ModulesDemo.adding_module) terminal)
  = Exited 0 /\
  fst (run (ModulesDemo.main ModulesDemo.adding_module) lost_terminal)
  = Aborted.
Proof.
  split; [split; eexists; reflexivity|]. split.
  - apply (proj1 (proj2 exit_code_zero) ModulesDemo.adding_module terminal).
    + split; eexists; reflexivity.
    + split; [intros i _; reflexivity | split; discriminate].
  - apply (proj2 (proj2 exit_code_zero) ModulesDemo.adding_module
             lost_terminal 3%nat 5%nat).
    + split; eexists; reflexivity.
    + lia.
    + intros [|[|[|i]]] Hi; try reflexivity; lia.
    + reflexivity.
Defined.

(** C3, as stated, fails: with a [test::sum] that returns, on a stream
    that reports every write as failed, the modules demo does not exit
    with code 0: the first [std::println] throws and the process is
    aborted. *)
Lemma demo_aborts_on_full_device :
  sum_returns ModulesDemo.adding_module /\
  fst (run (ModulesDemo.main ModulesDemo.adding_module) full_device)
  <> Exited 0.
Proof.
  split; [split; eexists; reflexivity|].
  vm_compute. discriminate.
Qed.

(** C5.  On a standard output that accepts what is written to it, the
    number on the third line of the test package is the sum of the two
    numbers on its second line. *)
Theorem test_package_sum_line (w : world) :
  accepts_all w ->
  match lines (snd (run TestPackage.main w)) with
  | [_; second; third] =>
      match numbers_on second, numbers_on third with
      | [a; b], [c] => c = a + b
      | _, _ => False
      end
  | _ => False
  end.
Proof.
  intros Hw.
  destruct (run_prints _ _ _ _ w test_package_prints Hw) as [_ ->].
  reflexivity.
Qed.

Lemma test_package_sum_line_terminal :
  accepts_all terminal /\
  match lines (snd (run TestPackage.main terminal)) with
  | [_; second; third] =>
      match numbers_on second, numbers_on third with
      | [a; b], [c] => c = a + b
      | _, _ => False
      end
  | _ => False
  end.
Proof.
  split; [intros i; reflexivity|].
  apply (test_package_sum_line terminal). intros i. reflexivity.
Defined.

(** C6, as the code has it.  The [main] of the test package has no
    failure path of its own: it never throws and has no undefined
    behaviour; it returns 0 whenever its three output calls come back,
    whatever they report, and otherwise it was killed by a signal or is
    blocked in a call.  The [main] of the modules demo, when
    [test::sum] returns, returns 0 exactly when each of its six
    [std::println] calls succeeds; its failure path is a
    [std::println] to which the stream reports a failed write: the call
    throws [std::system_error], which [main] does not catch. *)
Theorem failure_paths :
  (forall w,
     (fst (TestPackage.main (start w)) = Returned 0 \/
      fst (TestPackage.main (start w)) = Killed \/
      fst (TestPackage.main (start w)) = NoReturn) /\
     (fst (TestPackage.main (start w)) = Returned 0 <->
      forall i, (i < 3)%nat ->
        stdout_fate w i <> Kills /\ stdout_fate w i <> Blocks)) /\
  (forall (T : ModulesDemo.test_module) w,
     sum_returns T ->
     (fst (ModulesDemo.main T (start w)) = Returned 0 <->
      forall i, (i < 6)%nat -> stdout_fate w i = Takes)) /\
  (forall (T : ModulesDemo.test_module) w j k,
     sum_returns T ->
     (j < 6)%nat ->
     (forall i, (i < j)%nat -> stdout_fate w i = Takes) ->
     stdout_fate w j = Fails k ->
     fst (ModulesDemo.main T (start w)) = Threw system_error).
Proof.
  split; [|split].
  - intros w. split.
    + pose proof (main_through false 3 _ w test_package_through) as H.
      pose proof (first_halt_returning (stdout_fate w) 0 3) as Hn.
      destruct (first_halt false (stdout_fate w) 0 3) as [s|].
      * destruct H as [p ->]. destruct s; simpl; auto. now destruct Hn.
      * destruct H as (p & -> & _). now left.
    + rewrite (returns_zero_iff false 3 _ w test_package_through).
      split; intros H i Hi; apply halts_returning, H, Hi.
  - intros T w HT.
    rewrite (returns_zero_iff true 6 _ w (demo_through T HT)).
    split; intros H i Hi; apply halts_throwing, H, Hi.
  - intros T w j k HT Hj Hl Hf.
    apply (stopped_at true 6 _ w j stop_throw (demo_through T HT) Hj).
    + intros l Hl'. apply halts_throwing, Hl, Hl'.
    + now rewrite Hf.
Qed.

Lemma failure_paths_samples :
  sum_returns ModulesDemo.adding_module /\
  fst (ModulesDemo.main ModulesDemo.adding_module (start terminal))
  = Returned 0 /\
  fst (ModulesDemo.main ModulesDemo.adding_module (start full_device))
  = Threw system_error.
Proof.
  split; [split; eexists; reflexivity|]. split.
  - apply (proj1 (proj2 failure_paths) ModulesDemo.adding_module terminal).
    + split; eexists; reflexivity.
    + intros i _. reflexivity.
  - apply (proj2 (proj2 failure_paths) ModulesDemo.adding_module
             full_device 0%nat 0%nat).
    + split; eexists; reflexivity.
    + lia.
    + intros i Hi. lia.
    + reflexivity.
Defined.

(** C6, as stated, fails: with a [test::sum] that returns, on a terminal
    that goes away after the third line, the fourth [std::println]
    raises [std::system_error] and [main] does not complete. *)
Lemma demo_throws_on_lost_terminal :
  sum_returns ModulesDemo.adding_module /\
  fst (ModulesDemo.main ModulesDemo.adding_module (start lost_terminal))
  = Threw system_error.
Proof.
  split; [split; eexists; reflexivity|].
  vm_compute. reflexivity.
Qed.

(** C7, as the code has it.  Both [main] functions run straight through
    the calls they make and end once these have come back.  The test
    package returns 0 after exactly three output calls whenever none of
    them is cut off by a signal or blocks.  The modules demo returns 0
    after exactly six [std::println] calls, which make eight lines,
    whenever both calls of [test::sum] return and every [std::println]
    succeeds. *)
Theorem mains_run_to_completion :
  (forall w,
     (forall i, (i < 3)%nat ->
        stdout_fate w i <> Kills /\ stdout_fate w i <> Blocks) ->
     exists p,
       TestPackage.main (start w) = (Returned 0, p) /\ writes p = 3%nat) /\
  (forall (T : ModulesDemo.test_module) w,
     sum_returns T ->
     (forall i, (i < 6)%nat -> stdout_fate w i = Takes) ->
     exists p,
       ModulesDemo.main T (start w) = (Returned 0, p) /\
       writes p = 6%nat /\ count_nl (stdout p) = 8%nat).
Proof.
  split.
  - intros w H.
    pose proof (main_through false 3 _ w test_package_through) as Hm.
    rewrite (proj2 (first_halt_none false _ 0 3)) in Hm; [exact Hm|].
    intros j Hj. apply halts_returning, H. lia.
  - intros T w [[x Hx] [y Hy]] H.
    rewrite (demo_prints T x y Hx Hy (start w))
      by (intros i Hi; apply H; simpl in Hi; lia).
    eexists. split; [reflexivity|]. split; [reflexivity|].
    cbv [stdout start]. change ("" ++ unlines (demo_lines x y))
      with (unlines (demo_lines x y)).
    now rewrite count_nl_unlines by apply demo_lines_plain.
Qed.

Lemma mains_run_to_completion_samples :
  (exists p,
     TestPackage.main (start full_device) = (Returned 0, p) /\
     writes p = 3%nat) /\
  (exists p,
     ModulesDemo.main ModulesDemo.adding_module (start terminal)
     = (Returned 0, p) /\
     writes p = 6%nat /\ count_nl (stdout p) = 8%nat).
Proof.
  split.
  - apply (proj1 mains_run_to_completion full_device).
    intros i _. split; discriminate.
  - apply (proj2 mains_run_to_completion ModulesDemo.adding_module terminal).
    + split; eexists; reflexivity.
    + intros i _. reflexivity.
Defined.

(** C7, as stated, fails: a [test::sum] that terminates by throwing
    leaves [main] through the exception, before the two sums and the
    closing banner are printed; and on an unbuffered stream onto a pipe
    that is full and never read, the first write of the test package
    never comes back. *)
Lemma mains_cut_short :
  (sum_terminates throwing_module /\
   fst (ModulesDemo.main throwing_module (start terminal))
   = Threw other_exception) /\
  fst (TestPackage.main (start stuck_pipe)) = NoReturn.
Proof.
  split; [split; [split; exact I|]|]; vm_compute; reflexivity.
Qed.

(** C8.  Whatever [test::sum] returns, the modules demo writes the same
    number of lines: on a standard output that accepts what is written
    to it, its output has eight newline-terminated lines. *)
Theorem demo_line_count (T : ModulesDemo.test_module) (w : world) :
  sum_returns T -> accepts_all w ->
  count_nl (snd (run (ModulesDemo.main T) w)) = 8%nat.
Proof.
  intros [[x Hx] [y Hy]] Hw.
  destruct (run_prints _ _ _ _ w (demo_prints T _ _ Hx Hy) Hw) as [_ ->].
  cbv [snd]. now rewrite count_nl_unlines by apply demo_lines_plain.
Qed.

Lemma demo_line_count_terminal :
  sum_returns ModulesDemo.adding_module /\ accepts_all terminal /\
  count_nl (snd (run (ModulesDemo.main ModulesDemo.adding_module) terminal))
  = 8%nat.
Proof.
  split; [|split].
  - split; eexists; reflexivity.
  - intros i. reflexivity.
  - apply (demo_line_count ModulesDemo.adding_module terminal).
    + split; eexists; reflexivity.
    + intros i. reflexivity.
Defined.

(** C10.  On a standard output that accepts what is written to it, with
    both calls of [test::sum] returning, the output of the modules demo
    is byte for byte eight lines: an empty line, the line of the
    opening banner, the line "GNU Toolchain Demo!", the greeting with
    its two emoji in UTF-8, the line of the first sum, a line that
    starts "sum(7.2, 2.5) = ", the line of the closing banner, and an
    empty line. *)
Theorem demo_output_shape (T : ModulesDemo.test_module) (w : world)
    (x : Z) (y : Double.double) :
  accepts_all w ->
  ModulesDemo.sum_int T 5 6 = Returned x ->
  ModulesDemo.sum_double T ModulesDemo.lit_7_2 ModulesDemo.lit_2_5
  = Returned y ->
  exists numeral,
    let shape :=
      [ "";
        "========== RUNNING MODULES DEMO ==========";
        "GNU Toolchain Demo!";
        "👋 Hello, 🌐 World";
        "sum(5, 6) = " ++ dec x;
        "sum(7.2, 2.5) = " ++ numeral;
        "========== DEMO FINISHED ==========";
        "" ] in
    snd (run (ModulesDemo.main T) w) = unlines shape /\
    lines (snd (run (ModulesDemo.main T) w)) = shape /\
    codes (nth 3 (lines (snd (run (ModulesDemo.main T) w))) "")
    = [240; 159; 145; 139; 32; 72; 101; 108; 108; 111; 44; 32;
       240; 159; 140; 144; 32; 87; 111; 114; 108; 100]%nat.
Proof.
  intros Hw Hx Hy. exists (Double.to_chars y).
  destruct (run_prints _ _ _ _ w (demo_prints T _ _ Hx Hy) Hw) as [_ ->].
  cbv [snd]. fold (demo_lines x y).
  rewrite lines_unlines by apply demo_lines_plain.
  repeat split.
Qed.

Lemma demo_output_shape_terminal :
  accepts_all terminal /\
  exists numeral,
    lines (snd (run (ModulesDemo.main ModulesDemo.adding_module) terminal))
    = [ "";
        "========== RUNNING MODULES DEMO ==========";
        "GNU Toolchain Demo!";
        "👋 Hello, 🌐 World";
        "sum(5, 6) = 11";
        "sum(7.2, 2.5) = " ++ numeral;
        "========== DEMO FINISHED ==========";
        "" ].
Proof.
  split; [intros i; reflexivity|].
  destruct (demo_output_shape ModulesDemo.adding_module terminal 11
              (Double.add ModulesDemo.lit_7_2 ModulesDemo.lit_2_5))
    as (numeral & _ & H & _).
  - intros i. reflexivity.
  - reflexivity.
  - reflexivity.
  - exists numeral. exact H.
Defined.

(** * Further properties of the modules demo *)

(** ** Rules for [writes_part_of] *)

Section PartRules.

Context {A B : Type}.




End PartRules.







(** ** A [test::sum] that does not return *)

Lemma bind_prints {A B} (n : nat) (c : M A) (k : A -> M B)
    (s : string) (a : A) (p : process) :
  prints n c s a ->
  (forall i, (writes p <= i < writes p + n)%nat ->
     stdout_fate (host p) i = Takes) ->
  bind c k p
  = k a {| host := host p; stdout := stdout p ++ s; writes := writes p + n |}.
Proof. intros H Hp. unfold bind. now rewrite (H p Hp). Qed.

Lemma bind_call_breaks {A B} (o : outcome A) (k : A -> M B) (p : process) :
  breaks_off o -> bind (call o) k p = (escapes o, p).
Proof. unfold bind, call. destruct o; simpl; tauto. Qed.

(** X4.  The modules demo makes its three banner calls before it calls
    [test::sum], and a call of [test::sum] that throws, is killed or
    never returns ends [main] on the spot, the way the call ended.
    When the stream takes the banner and the call on [int]s breaks off,
    [main] has handed the stream the four banner lines in three calls
    and nothing else, and the call on [double]s is never made; when the
    call on [int]s returns [x], its line is taken too and the call on
    [double]s breaks off, [main] has handed over the banner and the
    line of the first sum in four calls.  The closing banner is not
    written in either case. *)
Theorem demo_stops_where_sum_breaks_off (T : ModulesDemo.test_module)
    (w : world) :
  (forall i, (i < 3)%nat -> stdout_fate w i = Takes) ->
  (breaks_off (ModulesDemo.sum_int T 5 6) ->
   ModulesDemo.main T (start w)
   = (escapes (ModulesDemo.sum_int T 5 6),
      {| host := w; stdout := unlines demo_banner; writes := 3 |})) /\
  (forall x,
     ModulesDemo.sum_int T 5 6 = Returned x ->
     stdout_fate w 3 = Takes ->
     breaks_off
       (ModulesDemo.sum_double T ModulesDemo.lit_7_2 ModulesDemo.lit_2_5) ->
     ModulesDemo.main T (start w)
     = (escapes
          (ModulesDemo.sum_double T ModulesDemo.lit_7_2 ModulesDemo.lit_2_5),
        {| host := w;
           stdout := unlines (demo_banner ++ ["sum(5, 6) = " ++ dec x]);
           writes := 4 |})).
Proof.
  intros Hw.
  assert (H3 : forall p n,
            host p = w -> (writes p + n <= 3)%nat ->
            forall i, (writes p <= i < writes p + n)%nat ->
                      stdout_fate (host p) i = Takes).
  { intros p n -> Hn i Hi. apply Hw. lia. }
  unfold ModulesDemo.main. split.
  - intros Hx.
    erewrite (bind_prints 1);
      [|eapply prints_println; reflexivity | apply H3; simpl; [easy | lia]].
    erewrite (bind_prints 1);
      [|eapply prints_println; reflexivity | apply H3; simpl; [easy | lia]].
    erewrite (bind_prints 1);
      [|eapply prints_println; reflexivity | apply H3; simpl; [easy | lia]].
    rewrite bind_call_breaks by exact Hx. reflexivity.
  - intros x Hx H4 Hy.
    erewrite (bind_prints 1);
      [|eapply prints_println; reflexivity | apply H3; simpl; [easy | lia]].
    erewrite (bind_prints 1);
      [|eapply prints_println; reflexivity | apply H3; simpl; [easy | lia]].
    erewrite (bind_prints 1);
      [|eapply prints_println; reflexivity | apply H3; simpl; [easy | lia]].
    erewrite (bind_prints 0);
      [|apply prints_call, Hx | apply H3; simpl; [easy | lia]].
    erewrite (bind_prints 1);
      [|apply prints_println, vformat_sum_int|].
    2: { simpl. intros i Hi. replace i with 3%nat by lia. exact H4. }
    rewrite bind_call_breaks by exact Hy. cbv [host stdout writes start].
    apply f_equal.
    apply (f_equal2 (fun s n => Build_process w s n)); reflexivity.
Qed.

Lemma demo_stops_where_sum_breaks_off_samples :
  ModulesDemo.main throwing_module (start terminal)
  = (Threw other_exception,
     {| host := terminal; stdout := unlines demo_banner; writes := 3 |}) /\
  ModulesDemo.main looping_module (start terminal)
  = (NoReturn,
     {| host := terminal;
        stdout := unlines (demo_banner ++ ["sum(5, 6) = " ++ dec 11]);
        writes := 4 |}).
Proof.
  split.
  - apply (proj1 (demo_stops_where_sum_breaks_off throwing_module terminal
                    (fun i _ => eq_refl))).
    exact I.
  - apply (proj2 (demo_stops_where_sum_breaks_off looping_module terminal
                    (fun i _ => eq_refl)) 11).
    + reflexivity.
    + reflexivity.
    + exact I.
Defined.

(** ** The output of the modules demo as UTF-8 *)

Lemma ascii_only_append (a b : string) :
  ascii_only (a ++ b) = ascii_only a && ascii_only b.
Proof.
  induction a as [|c a IH]; simpl; [reflexivity|].
  now rewrite IH, andb_assoc.
Qed.

Lemma ascii_only_take (n : nat) (s : string) :
  ascii_only s = true -> ascii_only (take n s) = true.
Proof.
  revert s. induction n as [|n IH]; intros [|c s]; simpl; try reflexivity.
  intros [Hc Hs]%andb_prop. now rewrite Hc, IH.
Qed.

Lemma ascii_only_drop (n : nat) (s : string) :
  ascii_only s = true -> ascii_only (drop n s) = true.
Proof.
  revert s. induction n as [|n IH]; intros [|c s]; simpl; try tauto.
  intros [Hc Hs]%andb_prop. now apply IH.
Qed.

Lemma ascii_only_zeros (n : nat) : ascii_only (zeros n) = true.
Proof. induction n as [|n IH]; simpl; [reflexivity | exact IH]. Qed.

Lemma ascii_only_uint (u : Decimal.uint) :
  ascii_only (NilEmpty.string_of_uint u) = true.
Proof. induction u; simpl; auto. Qed.

Lemma ascii_only_dec (n : Z) : ascii_only (dec n) = true.
Proof.
  unfold dec, NilZero.string_of_int, NilZero.string_of_uint.
  destruct (Z.to_int n) as [u|u]; destruct u; simpl;
    auto using ascii_only_uint.
Qed.

Lemma ascii_only_two_digits (a : Z) :
  ascii_only (Double.two_digits a) = true.
Proof.
  unfold Double.two_digits. destruct (a <? 10); simpl; apply ascii_only_dec.
Qed.

Lemma ascii_only_scientific (ds : string) (e : Z) :
  ascii_only ds = true -> ascii_only (Double.scientific ds e) = true.
Proof.
  unfold Double.scientific. destruct ds as [|c rest]; [reflexivity|].
  simpl. intros [Hc Hr]%andb_prop. rewrite Hc. simpl.
  rewrite ascii_only_append. simpl.
  rewrite ascii_only_append, ascii_only_two_digits.
  destruct rest; [|simpl in *; rewrite Hr]; destruct (e <? 0); reflexivity.
Qed.

Lemma ascii_only_fixed (whole : Z) (ds : string) (k : Z) :
  ascii_only ds = true -> ascii_only (Double.fixed whole ds k) = true.
Proof.
  intros H. unfold Double.fixed.
  destruct (0 <=? k); [apply ascii_only_dec|].
  destruct (_ <? _)%nat.
  - rewrite ascii_only_append. simpl.
    now rewrite ascii_only_take, ascii_only_drop.
  - simpl. now rewrite ascii_only_append, ascii_only_zeros.
Qed.

Lemma ascii_only_to_chars_finite (x : Double.double) (m : positive) (e : Z) :
  ascii_only (Double.to_chars_finite x m e) = true.
Proof.
  unfold Double.to_chars_finite.
  destruct (Double.shortest _ _ _ _ _ _) as [s k].
  destruct (Double.strip_zeros _ _ _) as [s' k'].
  destruct (_ <=? _)%nat;
    [apply ascii_only_fixed | apply ascii_only_scientific];
    apply ascii_only_dec.
Qed.

Lemma ascii_only_to_chars (x : Double.double) :
  ascii_only (Double.to_chars x) = true.
Proof.
  destruct x as [s|s| |s m e]; unfold Double.to_chars;
    try (destruct s; reflexivity); [reflexivity|].
  rewrite ascii_only_append, ascii_only_to_chars_finite.
  destruct s; reflexivity.
Qed.

Lemma utf8_ascii_append (a b : string) :
  ascii_only a = true -> utf8 (a ++ b) = utf8 b.
Proof.
  induction a as [|c a IH]; [reflexivity|].
  intros [Hc Ha]%andb_prop. cbn [append utf8]. rewrite Hc. now apply IH.
Qed.

(** The demo's text is its banner, with the two emoji, then the numerals
    between pieces of fixed ASCII text. *)
Lemma demo_text_pieces (x : Z) (y : Double.double) :
  unlines (demo_lines x y)
  = unlines demo_banner ++
    ("sum(5, 6) = " ++ dec x) ++
    (endl ++ "sum(7.2, 2.5) = " ++ Double.to_chars y) ++
    (endl ++ "========== DEMO FINISHED ==========" ++ endl ++ endl).
Proof.
  unfold unlines, demo_lines, demo_banner. cbn [fold_right].
  rewrite !append_assoc. reflexivity.
Qed.

Lemma utf8_after_banner (r : string) :
  utf8 (unlines demo_banner ++ r) = utf8 r.
Proof. reflexivity. Qed.

Lemma demo_text_utf8 (x : Z) (y : Double.double) :
  utf8 (unlines (demo_lines x y)) = true.
Proof.
  rewrite demo_text_pieces, utf8_after_banner.
  rewrite utf8_ascii_append
    by (rewrite ascii_only_append; now rewrite ascii_only_dec).
  rewrite utf8_ascii_append
    by (rewrite !ascii_only_append; now rewrite ascii_only_to_chars).
  reflexivity.
Qed.

(** X6.  Whatever [test::sum] returns, the output of the modules demo on
    a stream that accepts what is written to it is well-formed UTF-8:
    the two emoji of the greeting are whole four-byte sequences and
    everything else, the numerals of the two results included, is
    ASCII. *)
Theorem demo_output_utf8 (T : ModulesDemo.test_module) (w : world) :
  sum_returns T -> accepts_all w ->
  utf8 (snd (run (ModulesDemo.main T) w)) = true.
Proof.
  intros [[x Hx] [y Hy]] Hw.
  destruct (run_prints _ _ _ _ w (demo_prints T _ _ Hx Hy) Hw) as [_ ->].
  apply demo_text_utf8.
Qed.

Lemma demo_output_utf8_terminal :
  sum_returns ModulesDemo.adding_module /\ accepts_all terminal /\
  utf8 (snd (run (ModulesDemo.main ModulesDemo.adding_module) terminal))
  = true.
Proof.
  split; [|split].
  - split; eexists; reflexivity.
  - intros i. reflexivity.
  - apply (demo_output_utf8 ModulesDemo.adding_module terminal).
    + split; eexists; reflexivity.
    + intros i. reflexivity.
Defined.
